(** * The OddSmallNumbers association provider (OMI sample Demo-i2)

    A shallow embedding of
    [Unix/samples/Providers/Demo-i2/X_OddSmallNumbers_Class_Provider.cpp]:
    the nine provider operations, the two association resolvers
    [AssocOfSmallNumber] and [AssocOfNumberWorld], and the dispatch in
    [AssociatorInstances].  A [Context] is modelled by the log of what has
    been posted on it, oldest post first; every operation takes the
    context it was handed and returns the context it leaves behind.

    The service control script of the server follows the provider's
    types, in a small monad of its own. *)

From Stdlib Require Import ZArith List String Bool Lia Sorted.
From Equations Require Import Equations.
Import ListNotations.

Open Scope string_scope.
Open Scope list_scope.
Open Scope Z_scope.

(** ** The types of MI.h and of the generated class headers *)

(** The status codes the provider posts ([MI_Result] of MI.h; the provider
    uses these three only). *)
Inductive MI_Result : Type :=
| MI_RESULT_OK
| MI_RESULT_FAILED
| MI_RESULT_NOT_SUPPORTED.

(** [Field<T>]: a property slot, read in the source as [.exists] and
    [.value].  The value is there whether or not the flag is set. *)
Record Field (T : Type) : Type := mkField {
  exists_ : bool;
  value : T
}.
Arguments mkField {T} _ _.
Arguments exists_ {T} _.
Arguments value {T} _.

(** [Uint64] values are integers in [[0, 2^64)]; an [int] passed where a
    [Uint64] is expected is reduced modulo [2^64]. *)
Definition Uint64_of_int (i : Z) : Z := i mod 2 ^ 64.

(** Modelled from the spec: the class X_SmallNumber_Class (EntityA), whose
    header is not among the sources.  It has one key attribute, [Number],
    an unsigned 64-bit integer that is present or absent. *)
Record X_SmallNumber_Class : Type := mkSmallNumber {
  Number : Field Z
}.

(** Modelled from the spec: the class X_NumberWorld_Class (EntityB), whose
    header is not among the sources.  It has one key attribute, [Name], a
    string that is present or absent. *)
Record X_NumberWorld_Class : Type := mkNumberWorld {
  Name : Field string
}.

(** Modelled from the spec: the opaque handle [const MI_Instance*].  MI.h
    and the generated headers that declare the handle, the two type
    predicates and the two wrapping constructors are not among the sources,
    so a handle is given by what the provider can observe of it: the answer
    of each type predicate, and the typed view that casting the handle to
    the class's layout and wrapping it in the class yields. *)
Record MI_Instance : Type := mkInstance {
  X_SmallNumber_IsA : bool;
  X_NumberWorld_IsA : bool;
  as_X_SmallNumber : X_SmallNumber_Class;
  as_X_NumberWorld : X_NumberWorld_Class
}.

(** The base class [Instance] of everything a context can be handed. *)
Inductive Instance : Type :=
| SmallNumber_Instance (x : X_SmallNumber_Class)
| NumberWorld_Instance (x : X_NumberWorld_Class).

(** ** The result sink *)

(** One call of [context.Post]: an instance or a completion status. *)
Inductive Posted : Type :=
| PostedInstance (inst : Instance)
| PostedResult (r : MI_Result).

Definition Context : Type := list Posted.

(** [context.Post(result)] *)
Definition Post (r : MI_Result) (context : Context) : Context :=
  context ++ [PostedResult r].

(** [context.Post(instance)] *)
Definition PostInstance (inst : Instance) (context : Context) : Context :=
  context ++ [PostedInstance inst].

(** ** The instance builders of the sibling providers *)

(** Modelled from the spec: [FillNumberByKey], declared at the top of the
    provider and defined in the X_SmallNumber provider, which is not among
    the sources.  It constructs the EntityA instance with the given key. *)
Definition FillNumberByKey (key : Z) : X_SmallNumber_Class :=
  mkSmallNumber (mkField true key).

(** Modelled from the spec: [GetNumberWorld], declared at the top of the
    provider and defined in the X_NumberWorld provider, which is not among
    the sources.  It returns the singleton EntityB instance, the one with
    [Name = "theWorld"]. *)
Definition GetNumberWorld (ns : string) : X_NumberWorld_Class :=
  mkNumberWorld (mkField true "theWorld").

(** ** The generation loop of [AssocOfNumberWorld] *)

(** The number of values of [i] the loop has still to visit. *)
Definition remaining (i : Z) : nat := Z.to_nat (10000 - i).
Arguments remaining : simpl never.

(** [for (int i = 0; i < 10000; i++) { if (i % 2 == 0) continue;
    context.Post(FillNumberByKey(i)); }], entered at [i].  [%] on [int] is
    the truncating remainder; [i] stays below [10000], so [i++] never
    overflows; the [int] is converted to the [Uint64] parameter of
    [FillNumberByKey]. *)
Equations? AssocOfNumberWorld_loop (i : Z) (context : Context) : Context
  by wf (remaining i) lt :=
  AssocOfNumberWorld_loop i context with Z_lt_dec i 10000 := {
    | left _ =>
        if Z.rem i 2 =? 0
        then AssocOfNumberWorld_loop (i + 1) context
        else AssocOfNumberWorld_loop (i + 1)
               (PostInstance
                  (SmallNumber_Instance (FillNumberByKey (Uint64_of_int i)))
                  context)
    | right _ => context }.
Proof. all: unfold remaining; lia. Qed.

(** * The service control script

    The helper script for the omi service (Linux): [verify_privileges],
    [is_omi_running], [wait_until_omi_stops], [start_omi], [stop_omi],
    [restart_omi], [reload_omi] and the [case "$1"] at its end.  The
    script is modelled by what it asks of the machine, the programs it
    starts and the lines it prints, in order. *)

(** What the script reads of the machine it runs on, and how the machine
    answers a program the script starts for its effect.  Tests,
    substitutions and pipelines only read; [run] gives the exit status of
    the program and the machine it leaves. *)
Class Machine (M : Type) : Type := {
  (** the output of [id -u] *)
  id_u : M -> Z;
  (** [[ -f path ]] *)
  test_f : M -> string -> bool;
  (** [[ -x path ]] *)
  test_x : M -> string -> bool;
  (** the status of [ps -p `cat $PIDFILE` | grep -q omiserver] *)
  ps_grep_omiserver : M -> Z;
  (** the status of [pidof systemd] *)
  pidof_systemd : M -> Z;
  (** the output of [lsb_release -i | awk ... | sed ...] *)
  lsb_distro : M -> string;
  (** the output of [echo ${distro_version} '>= 8' | bc -l] *)
  bc_version_match : M -> string;
  (** a program started with its arguments *)
  run : list string -> M -> Z * M
}.

(** What a run of the script leaves to be seen: the programs it started
    and the lines it printed (on file descriptor [fd]). *)
Inductive Event : Type :=
| Ran (argv : list string)
| Echo (fd : Z) (text : string).

Record Shell (M : Type) : Type := mkShell {
  machine : M;
  log : list Event
}.
Arguments mkShell {M} _ _.
Arguments machine {M} _.
Arguments log {M} _.

(** A command list ends by falling through or returning, with a status, or
    by [exit], which ends the script from inside any function. *)
Inductive Flow : Type :=
| Returned (status : Z)
| Exited (status : Z).

Definition Sh (M : Type) : Type := Shell M -> Flow * Shell M.

Definition ret {M : Type} (status : Z) : Sh M :=
  fun s => (Returned status, s).

Definition exit_ {M : Type} (status : Z) : Sh M :=
  fun s => (Exited status, s).

Definition echo {M : Type} (fd : Z) (text : string) : Sh M :=
  fun s => (Returned 0, mkShell (machine s) (log s ++ [Echo fd text])).

Definition exec {M : Type} `{Machine M} (argv : list string) : Sh M :=
  fun s => (Returned (fst (run argv (machine s))),
            mkShell (snd (run argv (machine s))) (log s ++ [Ran argv])).

(** A test or substitution: read the machine and go on. *)
Definition ask {M A : Type} (f : M -> A) (k : A -> Sh M) : Sh M :=
  fun s => k (f (machine s)) s.

(** [c; k $?] *)
Definition bind {M : Type} (c : Sh M) (k : Z -> Sh M) : Sh M :=
  fun s =>
    match c s with
    | (Returned status, s') => k status s'
    | (Exited status, s') => (Exited status, s')
    end.

Notation "c ;; d" := (bind c (fun _ => d))
  (at level 61, right associativity).
Notation "x <- c ;; d" := (bind c (fun x => d))
  (at level 61, c at next level, right associativity).

Definition OMI_BIN : string := "/opt/omi/bin/omiserver".
Definition PIDFILE : string := "/var/opt/omi/run/omiserver.pid".

Definition verify_privileges {M : Type} `{Machine M} : Sh M :=
  ask id_u (fun uid =>
    if negb (uid =? 0) then
      echo 2 "Must have root privileges for this operation" ;;
      exit_ 1
    else ret 0).

(** Returns 1 if the server is running, 0 otherwise. *)
Definition is_omi_running {M : Type} `{Machine M} : Sh M :=
  verify_privileges ;;
  ask (fun m => test_f m PIDFILE) (fun pidfile =>
    if negb pidfile then ret 0
    else
      ask ps_grep_omiserver (fun STATUS =>
        (* Process name not omiserver, then not running *)
        if negb (STATUS =? 0) then ret 0 else ret 1)).

(** Shell arithmetic is on signed 64-bit integers. *)
Definition intmax (z : Z) : Z := (z + 2 ^ 63) mod 2 ^ 64 - 2 ^ 63.

(** [while [ $COUNTER -gt 0 ]; do is_omi_running && return $?;
    COUNTER=$(( $COUNTER - 1 )); sleep 0.5; done; is_omi_running], for a
    [COUNTER] that is not negative. *)
Fixpoint wait_until_omi_stops_loop {M : Type} `{Machine M}
    (COUNTER : nat) : Sh M :=
  match COUNTER with
  | O =>
      (* One final try for accurate return status *)
      is_omi_running
  | S COUNTER' =>
      status <- is_omi_running ;;
      if status =? 0 then ret 0
      else exec ["sleep"; "0.5"] ;; wait_until_omi_stops_loop COUNTER'
  end.

(** The double quote character. *)
Definition dquote : Ascii.ascii := Ascii.ascii_of_nat 34.

Definition invalid_parameter : string :=
  ("Function " ++ String dquote "wait_until_omi_stops"
   ++ String dquote " called with invalid parameter")%string.

(** [wait_until_omi_stops], called with a decimal integer as [$1]. *)
Definition wait_until_omi_stops {M : Type} `{Machine M}
    (seconds : Z) : Sh M :=
  if seconds <=? 0 then
    echo 1 invalid_parameter ;;
    exit_ 1
  else
    wait_until_omi_stops_loop (Z.to_nat (intmax (seconds * 2))).

Definition start_omi {M : Type} `{Machine M} : Sh M :=
  status <- is_omi_running ;;
  if negb (status =? 0) then ret 0
  else
    ask (fun m => test_f m "/etc/.omi_disable_service_control")
      (fun disabled =>
    if disabled then
      exec ["/opt/omi/bin/omiserver"; "-d"] ;;
      ret 0
    else
      (* If systemd lives here, then we have a systemd unit file *)
      ask pidof_systemd (fun systemd =>
      if systemd =? 0 then exec ["/bin/systemctl"; "start"; "omid"]
      else
        ask (fun m => test_x m "/sbin/initctl"
                      && test_f m "/etc/init/omid.conf") (fun upstart =>
        if upstart then exec ["/sbin/initctl"; "start"; "omid"]
        else ask (fun m => test_x m "/bin/systemctl") (fun x =>
        if x then exec ["/bin/systemctl"; "start"; "omid"]
        else ask (fun m => test_x m "/sbin/service") (fun x =>
        if x then exec ["/sbin/service"; "omid"; "start"]
        else ask (fun m => test_x m "/usr/sbin/service") (fun x =>
        if x then exec ["/usr/sbin/service"; "omid"; "start"]
        else ask (fun m => test_x m "/usr/sbin/invoke-rc.d") (fun x =>
        if x then exec ["/usr/sbin/invoke-rc.d"; "omid"; "start"]
        else
          echo 2 "Unrecognized service controller to start omid service" ;;
          exit_ 1))))))).

Definition stop_omi {M : Type} `{Machine M} : Sh M :=
  status <- is_omi_running ;;
  if negb (status =? 0) then
    ask (fun m => test_f m "/etc/.omi_disable_service_control")
      (fun disabled =>
    if disabled then
      exec ["/opt/omi/bin/omiserver"; "-s"] ;;
      ret 0
    else
      (* If systemd lives here, then we have a systemd unit file *)
      ask pidof_systemd (fun systemd =>
      if systemd =? 0 then exec ["/bin/systemctl"; "stop"; "omid"]
      else
        ask (fun m => test_x m "/sbin/initctl"
                      && test_f m "/etc/init/omid.conf") (fun upstart =>
        if upstart then exec ["/sbin/initctl"; "stop"; "omid"]
        else ask (fun m => test_x m "/bin/systemctl") (fun x =>
        if x then exec ["/bin/systemctl"; "stop"; "omid"]
        else ask (fun m => test_x m "/sbin/service") (fun x =>
        if x then exec ["/sbin/service"; "omid"; "stop"]
        else ask (fun m => test_x m "/usr/sbin/service") (fun x =>
        if x then exec ["/usr/sbin/service"; "omid"; "stop"]
        else ask (fun m => test_x m "/usr/sbin/invoke-rc.d") (fun x =>
        if x then exec ["/usr/sbin/invoke-rc.d"; "omid"; "stop"]
        else
          echo 2 "Unrecognized service controller to stop omid service" ;;
          exit_ 1)))))))
  else ret 0.

(** [restart_omi] past its special handling of Debian. *)
Definition restart_omi_generic {M : Type} `{Machine M} : Sh M :=
  status <- is_omi_running ;;
  if status =? 0 then start_omi
  else
    ask (fun m => test_f m "/etc/.omi_disable_service_control")
      (fun disabled =>
    if disabled then
      stop_omi ;;
      start_omi ;;
      ret 0
    else
      (* If systemd lives here, then we have a systemd unit file *)
      ask pidof_systemd (fun systemd =>
      if systemd =? 0 then exec ["/bin/systemctl"; "restart"; "omid"]
      else
        ask (fun m => test_x m "/sbin/initctl"
                      && test_f m "/etc/init/omid.conf") (fun upstart =>
        if upstart then exec ["/sbin/initctl"; "restart"; "omid"]
        else ask (fun m => test_x m "/bin/systemctl") (fun x =>
        if x then exec ["/bin/systemctl"; "restart"; "omid"]
        else ask (fun m => test_x m "/sbin/service") (fun x =>
        if x then exec ["/sbin/service"; "omid"; "restart"]
        else ask (fun m => test_x m "/usr/sbin/service") (fun x =>
        if x then exec ["/usr/sbin/service"; "omid"; "restart"]
        else ask (fun m => test_x m "/bin/systemctl") (fun x =>
        if x then exec ["/bin/systemctl"; "restart"; "omid"]
        else ask (fun m => test_x m "/usr/sbin/invoke-rc.d") (fun x =>
        if x then exec ["/usr/sbin/invoke-rc.d"; "omid"; "restart"]
        else
          echo 2
            "Unrecognized service controller to restart omid service" ;;
          exit_ 1)))))))).

Definition restart_omi {M : Type} `{Machine M} : Sh M :=
  (* Debian 8 and later special handling *)
  ask (fun m => test_x m "/usr/bin/lsb_release"
                && test_x m "/bin/systemctl") (fun tools =>
  if tools then
    ask lsb_distro (fun distro =>
    if (distro =? "Debian")%string then
      ask bc_version_match (fun version_match =>
      if (version_match =? "1")%string then
        exec ["/bin/systemctl"; "restart"; "omid"]
      else restart_omi_generic)
    else restart_omi_generic)
  else restart_omi_generic).

Definition reload_omi {M : Type} `{Machine M} : Sh M :=
  status <- is_omi_running ;;
  if negb (status =? 0) then
    (* If systemd lives here, then we have a systemd unit file *)
    ask pidof_systemd (fun systemd =>
    if systemd =? 0 then exec ["/bin/systemctl"; "reload"; "omid"]
    else exec [OMI_BIN; "-r"])
  else start_omi.

(** The [case "$1"] that ends the script. *)
Definition main {M : Type} `{Machine M} (arg1 : string) : Sh M :=
  if (arg1 =? "functions")%string then ret 0
  else if (arg1 =? "is-running")%string then
    status <- is_omi_running ;;
    exit_ status
  else if (arg1 =? "start")%string then start_omi
  else if (arg1 =? "stop")%string then stop_omi
  else if (arg1 =? "restart")%string then restart_omi
  else if (arg1 =? "reload")%string then
    (* For now, just have 'reload' do an actual restart. *)
    restart_omi
  else
    echo 2 ("Unknown parameter : " ++ arg1)%string ;;
    exit_ 1.


(** ** Vocabulary of the statements about the script *)

(** The server counts as running: the pid file is there and [ps] shows an
    omiserver under that pid. *)
Definition server_runs {M : Type} `{Machine M} (m : M) : bool :=
  test_f m PIDFILE && (ps_grep_omiserver m =? 0).

(** The marker file that takes the service manager out of the game. *)
Definition service_control_disabled {M : Type} `{Machine M} (m : M) : bool :=
  test_f m "/etc/.omi_disable_service_control".

(** Debian 8 or later, with [lsb_release] and [systemctl] installed. *)
Definition debian_8_or_later {M : Type} `{Machine M} (m : M) : bool :=
  test_x m "/usr/bin/lsb_release" && test_x m "/bin/systemctl"
  && (lsb_distro m =? "Debian")%string
  && (bc_version_match m =? "1")%string.

(** The service controllers the script knows, and how each is called. *)
Inductive Controller : Type :=
| systemctl
| initctl
| sbin_service
| usr_sbin_service
| invoke_rc_d.

Definition command (c : Controller) (verb : string) : list string :=
  match c with
  | systemctl => ["/bin/systemctl"; verb; "omid"]
  | initctl => ["/sbin/initctl"; verb; "omid"]
  | sbin_service => ["/sbin/service"; "omid"; verb]
  | usr_sbin_service => ["/usr/sbin/service"; "omid"; verb]
  | invoke_rc_d => ["/usr/sbin/invoke-rc.d"; "omid"; verb]
  end.

(** The first controller that is there, in the order: systemd running,
    upstart with its omid job, then the executables [/bin/systemctl],
    [/sbin/service], [/usr/sbin/service], [/usr/sbin/invoke-rc.d]. *)
Definition controller {M : Type} `{Machine M} (m : M) : option Controller :=
  if pidof_systemd m =? 0 then Some systemctl
  else if test_x m "/sbin/initctl" && test_f m "/etc/init/omid.conf"
  then Some initctl
  else if test_x m "/bin/systemctl" then Some systemctl
  else if test_x m "/sbin/service" then Some sbin_service
  else if test_x m "/usr/sbin/service" then Some usr_sbin_service
  else if test_x m "/usr/sbin/invoke-rc.d" then Some invoke_rc_d
  else None.

(** The script after a program has been started. *)
Definition after_run {M : Type} `{Machine M} (argv : list string)
    (s : Shell M) : Shell M :=
  mkShell (snd (run argv (machine s))) (log s ++ [Ran argv]).

(** The script after it has printed a line. *)
Definition after_echo {M : Type} (fd : Z) (text : string)
    (s : Shell M) : Shell M :=
  mkShell (machine s) (log s ++ [Echo fd text]).

(** One call of the service controller of the machine with [verb], or the
    complaint that there is none. *)
Definition via_controller {M : Type} `{Machine M} (verb : string)
    (s : Shell M) : Flow * Shell M :=
  match controller (machine s) with
  | Some c =>
      (Returned (fst (run (command c verb) (machine s))),
       after_run (command c verb) s)
  | None =>
      (Exited 1,
       after_echo 2
         ("Unrecognized service controller to " ++ verb
          ++ " omid service")%string s)
  end.


(** How every function that needs root ends for another user. *)
Definition refused {M : Type} (s : Shell M) : Flow * Shell M :=
  (Exited 1,
   after_echo 2 "Must have root privileges for this operation" s).


(** ** A small machine to run the script on *)

Record Box : Type := mkBox {
  box_uid : Z;
  box_server_runs : bool;
  box_files : list string;
  box_executables : list string;
  box_systemd_runs : bool;
  box_distro : string;
  box_version_match : string
}.

Definition mentions (words : list string) (argv : list string) : bool :=
  existsb (fun a => existsb (String.eqb a) words) argv.

(** Programs that stop the server leave it stopped, programs that start it
    leave it running, all with status 0. *)
Definition box_run (argv : list string) (b : Box) : Z * Box :=
  (0,
   if mentions ["stop"; "-s"] argv then
     mkBox (box_uid b) false (box_files b) (box_executables b)
       (box_systemd_runs b) (box_distro b) (box_version_match b)
   else if mentions ["start"; "restart"; "-d"] argv then
     mkBox (box_uid b) true (box_files b) (box_executables b)
       (box_systemd_runs b) (box_distro b) (box_version_match b)
   else b).

#[export] Instance Box_Machine : Machine Box := {
  id_u := box_uid;
  test_f := fun b path =>
    if (path =? PIDFILE)%string then box_server_runs b
    else existsb (String.eqb path) (box_files b);
  test_x := fun b path => existsb (String.eqb path) (box_executables b);
  ps_grep_omiserver := fun b => if box_server_runs b then 0 else 1;
  pidof_systemd := fun b => if box_systemd_runs b then 0 else 1;
  lsb_distro := box_distro;
  bc_version_match := box_version_match;
  run := box_run
}.

(** A systemd host. *)
Definition systemd_box (uid : Z) (runs : bool) : Box :=
  mkBox uid runs [] ["/bin/systemctl"] true "Ubuntu" "0".

(** A container: no service manager, the marker file in place. *)
Definition container_box (uid : Z) (runs : bool) : Box :=
  mkBox uid runs ["/etc/.omi_disable_service_control"] [] false "" "".

(** A Debian 9 host. *)
Definition debian_box (uid : Z) (runs : bool) : Box :=
  mkBox uid runs ["/etc/.omi_disable_service_control"]
    ["/usr/bin/lsb_release"; "/bin/systemctl"] true "Debian" "1".

(** A host with no service controller at all. *)
Definition bare_box (uid : Z) (runs : bool) : Box :=
  mkBox uid runs [] [] false "" "".

(** The script about to run on a box, nothing logged yet. *)
Definition on (b : Box) : Shell Box := mkShell b [].

(** ** The provider *)

Section Provider.

(** [PropertySet] and [MI_Filter] are declared in MI.h and the C++ binding;
    the provider receives them and never looks inside.  A [const MI_Filter*]
    may be null. *)
Variable PropertySet : Type.
Variable MI_Filter : Type.

(** [X_OddSmallNumbers_Class], the association class the instance
    operations are handed; its generated header is not among the sources
    and no operation reads it. *)
Variable X_OddSmallNumbers_Class : Type.

Definition EnumerateInstances (context : Context) (nameSpace : string)
    (propertySet : PropertySet) (keysOnly : bool)
    (filter : option MI_Filter) : Context :=
  Post MI_RESULT_NOT_SUPPORTED context.

Definition GetInstance (context : Context) (nameSpace : string)
    (instance_ref : X_OddSmallNumbers_Class)
    (propertySet : PropertySet) : Context :=
  Post MI_RESULT_NOT_SUPPORTED context.

Definition CreateInstance (context : Context) (nameSpace : string)
    (new_instance : X_OddSmallNumbers_Class) : Context :=
  Post MI_RESULT_NOT_SUPPORTED context.

Definition ModifyInstance (context : Context) (nameSpace : string)
    (new_instance : X_OddSmallNumbers_Class)
    (propertySet : PropertySet) : Context :=
  Post MI_RESULT_NOT_SUPPORTED context.

Definition DeleteInstance (context : Context) (nameSpace : string)
    (instance_ref : X_OddSmallNumbers_Class) : Context :=
  Post MI_RESULT_NOT_SUPPORTED context.

(** The EntityA direction.  [role.GetSize() == 0] is the test for the empty
    string and [==] on [String] is exact comparison. *)
Definition AssocOfSmallNumber (context : Context)
    (instanceName : X_SmallNumber_Class)
    (resultClass role resultRole : string)
    (propertySet : PropertySet) (keysOnly : bool)
    (filter : option MI_Filter) : Context :=
  if negb (exists_ (Number instanceName)) then
    (* key is missing *)
    Post MI_RESULT_FAILED context
  else
    let num := value (Number instanceName) in
    (* only one instance exist on other side *)
    let context :=
      if (num mod 2 =? 1)
         && ((String.length role =? 0)%nat || (role =? "number")%string)
         && ((String.length resultRole =? 0)%nat
             || (resultRole =? "world")%string)
      then PostInstance (NumberWorld_Instance (GetNumberWorld "")) context
      else context in
    Post MI_RESULT_OK context.

(** The EntityB direction. *)
Definition AssocOfNumberWorld (context : Context)
    (instanceName : X_NumberWorld_Class)
    (resultClass role resultRole : string)
    (propertySet : PropertySet) (keysOnly : bool)
    (filter : option MI_Filter) : Context :=
  if negb (exists_ (Name instanceName)) then
    (* key is missing *)
    Post MI_RESULT_FAILED context
  else
    let name := value (Name instanceName) in
    let context :=
      if (name =? "theWorld")%string
         && ((String.length role =? 0)%nat || (role =? "world")%string)
         && ((String.length resultRole =? 0)%nat
             || (resultRole =? "number")%string)
      then AssocOfNumberWorld_loop 0 context
      else context in
    Post MI_RESULT_OK context.

Definition AssociatorInstances (context : Context) (nameSpace : string)
    (instanceName : MI_Instance)
    (resultClass role resultRole : string)
    (propertySet : PropertySet) (keysOnly : bool)
    (filter : option MI_Filter) : Context :=
  if X_SmallNumber_IsA instanceName then
    AssocOfSmallNumber context (as_X_SmallNumber instanceName)
      resultClass role resultRole propertySet keysOnly filter
  else if X_NumberWorld_IsA instanceName then
    AssocOfNumberWorld context (as_X_NumberWorld instanceName)
      resultClass role resultRole propertySet keysOnly filter
  else
    (* unknown type *)
    Post MI_RESULT_FAILED context.

Definition ReferenceInstances (context : Context) (nameSpace : string)
    (instanceName : MI_Instance) (role : string)
    (propertySet : PropertySet) (keysOnly : bool)
    (filter : option MI_Filter) : Context :=
  Post MI_RESULT_NOT_SUPPORTED context.

Definition Load (context : Context) : Context :=
  Post MI_RESULT_OK context.

Definition Unload (context : Context) : Context :=
  Post MI_RESULT_OK context.

(** ** Vocabulary of the statements *)

(** The integers [i, i+1, ..., i+n-1], in this order. *)
Fixpoint Zrange (i : Z) (n : nat) : list Z :=
  match n with
  | O => []
  | S n' => i :: Zrange (i + 1) n'
  end.

(** The odd integers of [[0, 10000)], ascending. *)
Definition odd_numbers : list Z := filter Z.odd (Zrange 0 (Z.to_nat 10000)).

(** The post of the EntityA instance whose [Number] is present with value
    [k]. *)
Definition posted_number (k : Z) : Posted :=
  PostedInstance (SmallNumber_Instance (mkSmallNumber (mkField true k))).

(** The post of the EntityB singleton. *)
Definition posted_theWorld : Posted :=
  PostedInstance
    (NumberWorld_Instance (mkNumberWorld (mkField true "theWorld"))).

(** The sink protocol on the posts of one call: instances only, then one
    status, then nothing. *)
Fixpoint sink_protocol (posts : list Posted) : bool :=
  match posts with
  | [] => false
  | [PostedResult _] => true
  | PostedInstance _ :: rest => sink_protocol rest
  | PostedResult _ :: _ :: _ => false
  end.

(** An operation obeys the sink protocol when, from every context, what it
    adds to the context is a run of instances closed by one status. *)
Definition answers_once (op : Context -> Context) : Prop :=
  forall context : Context,
    exists posts : list Posted,
      op context = context ++ posts /\ sink_protocol posts = true.

(** Sample handles. *)
Definition number_7 : MI_Instance :=
  mkInstance true false (mkSmallNumber (mkField true 7))
    (mkNumberWorld (mkField false "")).

Definition number_8 : MI_Instance :=
  mkInstance true false (mkSmallNumber (mkField true 8))
    (mkNumberWorld (mkField false "")).

Definition number_unset : MI_Instance :=
  mkInstance true false (mkSmallNumber (mkField false 0))
    (mkNumberWorld (mkField false "")).

Definition world (name : string) : MI_Instance :=
  mkInstance false true (mkSmallNumber (mkField false 0))
    (mkNumberWorld (mkField true name)).

Definition world_unset : MI_Instance :=
  mkInstance false true (mkSmallNumber (mkField false 0))
    (mkNumberWorld (mkField false "")).

Definition stranger : MI_Instance :=
  mkInstance false false (mkSmallNumber (mkField true 7))
    (mkNumberWorld (mkField true "theWorld")).

Definition number_7_and_world : MI_Instance :=
  mkInstance true true (mkSmallNumber (mkField true 7))
    (mkNumberWorld (mkField true "theWorld")).

(** The EntityA handle whose [Number] is present with value [k]. *)
Definition number (k : Z) : MI_Instance :=
  mkInstance true false (mkSmallNumber (mkField true k))
    (mkNumberWorld (mkField false "")).

(** ** The generation loop *)

Lemma AssocOfNumberWorld_loop_step (i : Z) (context : Context) :
  AssocOfNumberWorld_loop i context =
  if Z_lt_dec i 10000 then
    if Z.rem i 2 =? 0
    then AssocOfNumberWorld_loop (i + 1) context
    else AssocOfNumberWorld_loop (i + 1)
           (PostInstance
              (SmallNumber_Instance (FillNumberByKey (Uint64_of_int i)))
              context)
  else context.
Proof.
  rewrite AssocOfNumberWorld_loop_equation_1.
  destruct (Z_lt_dec i 10000) as [Hlt|Hge].
  - now rewrite AssocOfNumberWorld_loop_clause_1_equation_1.
  - now rewrite AssocOfNumberWorld_loop_clause_1_equation_2.
Qed.

Lemma rem_2_is_0 (i : Z) : 0 <= i -> (Z.rem i 2 =? 0) = negb (Z.odd i).
Proof.
  intros Hi.
  rewrite Z.rem_mod_nonneg by lia.
  rewrite Zmod_odd.
  destruct (Z.odd i); reflexivity.
Qed.

Lemma Uint64_of_int_small (i : Z) : 0 <= i < 10000 -> Uint64_of_int i = i.
Proof.
  intros Hi. unfold Uint64_of_int.
  apply Z.mod_small. split; [lia|].
  apply Z.lt_trans with 10000; [lia | reflexivity].
Qed.

(** Entered at [i] with [n] values left to visit, the loop posts the odd
    ones among them, in order, after what the context already holds. *)
Lemma AssocOfNumberWorld_loop_posts (n : nat) :
  forall (i : Z) (context : Context),
    0 <= i -> i + Z.of_nat n = 10000 ->
    AssocOfNumberWorld_loop i context =
    context ++ map posted_number (filter Z.odd (Zrange i n)).
Proof.
  induction n as [|n IH]; intros i context Hi Hn;
    rewrite AssocOfNumberWorld_loop_step.
  - destruct (Z_lt_dec i 10000) as [Hlt|_]; [lia|].
    simpl. now rewrite app_nil_r.
  - destruct (Z_lt_dec i 10000) as [_|Hge]; [|lia].
    rewrite rem_2_is_0 by assumption.
    cbn [Zrange filter].
    destruct (Z.odd i); cbn [negb map].
    + rewrite IH by lia.
      rewrite Uint64_of_int_small by lia.
      unfold PostInstance, FillNumberByKey, posted_number.
      now rewrite <- app_assoc.
    + apply IH; lia.
Qed.

(** Run from [0], the loop posts the odd numbers below [10000]. *)
Lemma AssocOfNumberWorld_loop_from_0 (context : Context) :
  AssocOfNumberWorld_loop 0 context =
  context ++ map posted_number odd_numbers.
Proof.
  unfold odd_numbers. apply AssocOfNumberWorld_loop_posts; lia.
Qed.

(** ** The odd numbers below 10000 *)

Lemma In_Zrange (n : nat) :
  forall i k, In k (Zrange i n) <-> i <= k < i + Z.of_nat n.
Proof.
  induction n as [|n IH]; intros i k; cbn [Zrange In].
  - lia.
  - rewrite IH. lia.
Qed.

Lemma Zrange_sorted (n : nat) : forall i, StronglySorted Z.lt (Zrange i n).
Proof.
  induction n as [|n IH]; intros i; cbn [Zrange]; constructor.
  - apply IH.
  - apply Forall_forall. intros k Hk. apply In_Zrange in Hk. lia.
Qed.

Lemma filter_sorted {A : Type} (R : A -> A -> Prop) (f : A -> bool) :
  forall l, StronglySorted R l -> StronglySorted R (filter f l).
Proof.
  induction 1 as [|a l _ IH Ha]; cbn [filter].
  - constructor.
  - destruct (f a); [constructor|]; try assumption.
    apply Forall_forall. intros x Hx. apply filter_In in Hx.
    rewrite Forall_forall in Ha. now apply Ha.
Qed.

Lemma sorted_lt_NoDup : forall l, StronglySorted Z.lt l -> NoDup l.
Proof.
  induction 1 as [|a l _ IH Ha]; constructor; [|assumption].
  intros Hin. rewrite Forall_forall in Ha. specialize (Ha a Hin). lia.
Qed.

Lemma length_odd_numbers : List.length odd_numbers = Z.to_nat 5000.
Proof. vm_compute. reflexivity. Qed.

Lemma In_odd_numbers (k : Z) :
  In k odd_numbers <-> 0 <= k < 10000 /\ Z.odd k = true.
Proof.
  unfold odd_numbers. rewrite filter_In, In_Zrange.
  rewrite Z2Nat.id by lia. reflexivity.
Qed.

Lemma odd_numbers_sorted : StronglySorted Z.lt odd_numbers.
Proof. apply filter_sorted, Zrange_sorted. Qed.

Lemma odd_numbers_once (k : Z) :
  In k odd_numbers -> count_occ Z.eq_dec odd_numbers k = 1%nat.
Proof.
  apply NoDup_count_occ'. apply sorted_lt_NoDup, odd_numbers_sorted.
Qed.

(** ** The two resolvers *)

Lemma GetSize_is_0 (s : string) : (String.length s =? 0)%nat = (s =? "")%string.
Proof. destruct s; reflexivity. Qed.

(** [role] passes the filter for [end_] when it is empty or is [end_]. *)
Lemma role_check (role end_ : string) :
  (String.length role =? 0)%nat || (role =? end_)%string = true <->
  role = "" \/ role = end_.
Proof.
  rewrite GetSize_is_0, orb_true_iff, !String.eqb_eq. reflexivity.
Qed.

Lemma AssocOfSmallNumber_missing_key context instanceName resultClass role
    resultRole (propertySet : PropertySet) keysOnly
    (filter : option MI_Filter) :
  exists_ (Number instanceName) = false ->
  AssocOfSmallNumber context instanceName resultClass role resultRole
    propertySet keysOnly filter
  = context ++ [PostedResult MI_RESULT_FAILED].
Proof. intros H. unfold AssocOfSmallNumber. now rewrite H. Qed.

Lemma AssocOfNumberWorld_missing_key context instanceName resultClass role
    resultRole (propertySet : PropertySet) keysOnly
    (filter : option MI_Filter) :
  exists_ (Name instanceName) = false ->
  AssocOfNumberWorld context instanceName resultClass role resultRole
    propertySet keysOnly filter
  = context ++ [PostedResult MI_RESULT_FAILED].
Proof. intros H. unfold AssocOfNumberWorld. now rewrite H. Qed.

(** With its key present, the EntityA resolver posts the singleton when
    its three tests pass, and then [MI_RESULT_OK] either way. *)
Lemma AssocOfSmallNumber_present context instanceName resultClass role
    resultRole (propertySet : PropertySet) keysOnly
    (filter : option MI_Filter) :
  exists_ (Number instanceName) = true ->
  AssocOfSmallNumber context instanceName resultClass role resultRole
    propertySet keysOnly filter
  = context
    ++ (if Z.odd (value (Number instanceName))
           && ((String.length role =? 0)%nat || (role =? "number")%string)
           && ((String.length resultRole =? 0)%nat
               || (resultRole =? "world")%string)
        then [posted_theWorld] else [])
    ++ [PostedResult MI_RESULT_OK].
Proof.
  intros H. unfold AssocOfSmallNumber. rewrite H. cbn [negb].
  rewrite Zmod_odd.
  replace ((if Z.odd (value (Number instanceName)) then 1 else 0) =? 1)
    with (Z.odd (value (Number instanceName)))
    by (destruct (Z.odd _); reflexivity).
  match goal with |- context [if ?c then _ else _] => destruct c end.
  - unfold Post, PostInstance, GetNumberWorld, posted_theWorld.
    now rewrite <- app_assoc.
  - reflexivity.
Qed.

(** With its key present, the EntityB resolver posts the odd numbers when
    its three tests pass, and then [MI_RESULT_OK] either way. *)
Lemma AssocOfNumberWorld_present context instanceName resultClass role
    resultRole (propertySet : PropertySet) keysOnly
    (filter : option MI_Filter) :
  exists_ (Name instanceName) = true ->
  AssocOfNumberWorld context instanceName resultClass role resultRole
    propertySet keysOnly filter
  = context
    ++ (if (value (Name instanceName) =? "theWorld")%string
           && ((String.length role =? 0)%nat || (role =? "world")%string)
           && ((String.length resultRole =? 0)%nat
               || (resultRole =? "number")%string)
        then map posted_number odd_numbers else [])
    ++ [PostedResult MI_RESULT_OK].
Proof.
  intros H. unfold AssocOfNumberWorld. rewrite H. cbn [negb].
  match goal with |- context [if ?c then _ else _] => destruct c end.
  - rewrite AssocOfNumberWorld_loop_from_0.
    unfold Post. rewrite <- app_assoc. reflexivity.
  - reflexivity.
Qed.

(** ** The sink protocol *)

Lemma sink_protocol_instances_then_result (insts : list Instance)
    (r : MI_Result) :
  sink_protocol (map PostedInstance insts ++ [PostedResult r]) = true.
Proof. induction insts as [|inst insts IH]; [reflexivity | exact IH]. Qed.

(** [sink_protocol] accepts exactly the runs of instances closed by one
    status. *)
Lemma sink_protocol_shape (posts : list Posted) :
  sink_protocol posts = true <->
  exists insts r, posts = map PostedInstance insts ++ [PostedResult r].
Proof.
  split.
  - induction posts as [|p rest IH]; cbn [sink_protocol]; [discriminate|].
    destruct p as [inst|r].
    + intros H. destruct (IH H) as (insts & r & ->).
      now exists (inst :: insts), r.
    + destruct rest; [|discriminate]. intros _. now exists [], r.
  - intros (insts & r & ->). apply sink_protocol_instances_then_result.
Qed.

Lemma posted_numbers_are_instances (keys : list Z) :
  map posted_number keys =
  map PostedInstance
    (map (fun k => SmallNumber_Instance (mkSmallNumber (mkField true k)))
       keys).
Proof. now rewrite map_map. Qed.

Lemma Post_answers_once (r : MI_Result) : answers_once (Post r).
Proof.
  intros context. exists [PostedResult r]. split; reflexivity.
Qed.

Lemma AssocOfSmallNumber_answers_once instanceName resultClass role
    resultRole (propertySet : PropertySet) keysOnly
    (filter : option MI_Filter) :
  answers_once (fun context =>
    AssocOfSmallNumber context instanceName resultClass role resultRole
      propertySet keysOnly filter).
Proof.
  intros context.
  destruct (exists_ (Number instanceName)) eqn:Hkey.
  - rewrite AssocOfSmallNumber_present by assumption.
    eexists; split; [reflexivity|].
    match goal with |- context [if ?c then _ else _] => destruct c end;
      reflexivity.
  - rewrite AssocOfSmallNumber_missing_key by assumption.
    eexists; split; reflexivity.
Qed.

Lemma AssocOfNumberWorld_answers_once instanceName resultClass role
    resultRole (propertySet : PropertySet) keysOnly
    (filter : option MI_Filter) :
  answers_once (fun context =>
    AssocOfNumberWorld context instanceName resultClass role resultRole
      propertySet keysOnly filter).
Proof.
  intros context.
  destruct (exists_ (Name instanceName)) eqn:Hkey.
  - rewrite AssocOfNumberWorld_present by assumption.
    eexists; split; [reflexivity|].
    match goal with |- context [if ?c then _ else _] => destruct c end;
      [|reflexivity].
    rewrite posted_numbers_are_instances.
    apply sink_protocol_instances_then_result.
  - rewrite AssocOfNumberWorld_missing_key by assumption.
    eexists; split; reflexivity.
Qed.

(** ** The claims *)

(** C1.  For every handle the dispatch takes for an EntityB instance whose
    [Name] is present and is "theWorld", with empty [role] and
    [resultRole], AssociatorInstances posts the EntityA instances keyed by
    [odd_numbers] and then [MI_RESULT_OK]; [odd_numbers] has 5000 elements,
    holds exactly the odd integers of [[0, 10000)], each once, and is
    in ascending order. *)
Theorem theWorld_posts_every_odd_number :
  forall context nameSpace instanceName resultClass
         (propertySet : PropertySet) keysOnly (filter : option MI_Filter),
    X_SmallNumber_IsA instanceName = false ->
    X_NumberWorld_IsA instanceName = true ->
    exists_ (Name (as_X_NumberWorld instanceName)) = true ->
    value (Name (as_X_NumberWorld instanceName)) = "theWorld" ->
    AssociatorInstances context nameSpace instanceName resultClass "" ""
      propertySet keysOnly filter
    = context ++ map posted_number odd_numbers
              ++ [PostedResult MI_RESULT_OK]
    /\ List.length odd_numbers = Z.to_nat 5000
    /\ (forall k, In k odd_numbers <-> 0 <= k < 10000 /\ Z.odd k = true)
    /\ (forall k, In k odd_numbers ->
                  count_occ Z.eq_dec odd_numbers k = 1%nat)
    /\ StronglySorted Z.lt odd_numbers.
Proof.
  intros context nameSpace instanceName resultClass propertySet keysOnly
    filter HA HB Hkey Hname.
  split; [|split; [|split; [|split]]].
  - unfold AssociatorInstances. rewrite HA, HB.
    rewrite AssocOfNumberWorld_present by assumption.
    now rewrite Hname.
  - apply length_odd_numbers.
  - apply In_odd_numbers.
  - apply odd_numbers_once.
  - apply odd_numbers_sorted.
Qed.

(** C2.  For every EntityA handle whose [Number] is present and odd, with
    empty [role] and [resultRole], AssociatorInstances posts one instance,
    the EntityB singleton named "theWorld", and then [MI_RESULT_OK]. *)
Theorem odd_number_posts_theWorld :
  forall context nameSpace instanceName resultClass
         (propertySet : PropertySet) keysOnly (filter : option MI_Filter),
    X_SmallNumber_IsA instanceName = true ->
    exists_ (Number (as_X_SmallNumber instanceName)) = true ->
    Z.odd (value (Number (as_X_SmallNumber instanceName))) = true ->
    AssociatorInstances context nameSpace instanceName resultClass "" ""
      propertySet keysOnly filter
    = context ++ [posted_theWorld; PostedResult MI_RESULT_OK].
Proof.
  intros context nameSpace instanceName resultClass propertySet keysOnly
    filter HA Hkey Hodd.
  unfold AssociatorInstances. rewrite HA.
  rewrite AssocOfSmallNumber_present by assumption.
  now rewrite Hodd.
Qed.

(** C3.  Each of the nine operations, on any arguments and any handle,
    adds to the context a run of instance posts closed by exactly one
    status: one status per call, every instance before it, none after. *)
Theorem every_operation_answers_once :
  (forall nameSpace (propertySet : PropertySet) keysOnly
          (filter : option MI_Filter),
      answers_once (fun context =>
        EnumerateInstances context nameSpace propertySet keysOnly filter))
  /\ (forall nameSpace (instance_ref : X_OddSmallNumbers_Class)
             (propertySet : PropertySet),
      answers_once (fun context =>
        GetInstance context nameSpace instance_ref propertySet))
  /\ (forall nameSpace (new_instance : X_OddSmallNumbers_Class),
      answers_once (fun context =>
        CreateInstance context nameSpace new_instance))
  /\ (forall nameSpace (new_instance : X_OddSmallNumbers_Class)
             (propertySet : PropertySet),
      answers_once (fun context =>
        ModifyInstance context nameSpace new_instance propertySet))
  /\ (forall nameSpace (instance_ref : X_OddSmallNumbers_Class),
      answers_once (fun context =>
        DeleteInstance context nameSpace instance_ref))
  /\ (forall nameSpace instanceName role (propertySet : PropertySet)
             keysOnly (filter : option MI_Filter),
      answers_once (fun context =>
        ReferenceInstances context nameSpace instanceName role propertySet
          keysOnly filter))
  /\ (forall nameSpace instanceName resultClass role resultRole
             (propertySet : PropertySet) keysOnly
             (filter : option MI_Filter),
      answers_once (fun context =>
        AssociatorInstances context nameSpace instanceName resultClass role
          resultRole propertySet keysOnly filter))
  /\ answers_once Load
  /\ answers_once Unload.
Proof.
  repeat split; intros; try apply Post_answers_once.
  unfold AssociatorInstances.
  destruct (X_SmallNumber_IsA instanceName);
    [apply AssocOfSmallNumber_answers_once|].
  destruct (X_NumberWorld_IsA instanceName);
    [apply AssocOfNumberWorld_answers_once | apply Post_answers_once].
Qed.

(** C4.  For every EntityA handle whose [Number] is absent, and for every
    handle the dispatch takes for an EntityB instance whose [Name] is
    absent, AssociatorInstances posts [MI_RESULT_FAILED] and nothing
    else. *)
Theorem missing_key_posts_Failed :
  forall context nameSpace instanceName resultClass role resultRole
         (propertySet : PropertySet) keysOnly (filter : option MI_Filter),
    (X_SmallNumber_IsA instanceName = true /\
     exists_ (Number (as_X_SmallNumber instanceName)) = false)
    \/ (X_SmallNumber_IsA instanceName = false /\
        X_NumberWorld_IsA instanceName = true /\
        exists_ (Name (as_X_NumberWorld instanceName)) = false) ->
    AssociatorInstances context nameSpace instanceName resultClass role
      resultRole propertySet keysOnly filter
    = context ++ [PostedResult MI_RESULT_FAILED].
Proof.
  intros context nameSpace instanceName resultClass role resultRole
    propertySet keysOnly filter [[HA Hkey] | (HA & HB & Hkey)];
    unfold AssociatorInstances; rewrite HA.
  - now apply AssocOfSmallNumber_missing_key.
  - rewrite HB. now apply AssocOfNumberWorld_missing_key.
Qed.

(** C5.  In the EntityA direction, for every handle with a present, odd
    [Number]: the singleton is posted (then [MI_RESULT_OK]) exactly when
    [role] is empty or is "number" and [resultRole] is empty or is "world",
    the comparison being exact; with any other value of either string
    nothing is posted but [MI_RESULT_OK]. *)
Theorem SmallNumber_role_filter :
  forall context nameSpace instanceName resultClass role resultRole
         (propertySet : PropertySet) keysOnly (filter : option MI_Filter),
    X_SmallNumber_IsA instanceName = true ->
    exists_ (Number (as_X_SmallNumber instanceName)) = true ->
    Z.odd (value (Number (as_X_SmallNumber instanceName))) = true ->
    let after :=
      AssociatorInstances context nameSpace instanceName resultClass role
        resultRole propertySet keysOnly filter in
    let passes :=
      (role = "" \/ role = "number") /\
      (resultRole = "" \/ resultRole = "world") in
    (passes <->
     after = context ++ [posted_theWorld; PostedResult MI_RESULT_OK])
    /\ (~ passes <-> after = context ++ [PostedResult MI_RESULT_OK]).
Proof.
  intros context nameSpace instanceName resultClass role resultRole
    propertySet keysOnly filter HA Hkey Hodd after passes.
  assert (Hafter : after = context
            ++ (if ((String.length role =? 0)%nat || (role =? "number")%string)
                   && ((String.length resultRole =? 0)%nat
                       || (resultRole =? "world")%string)
                then [posted_theWorld] else [])
            ++ [PostedResult MI_RESULT_OK]).
  { subst after. unfold AssociatorInstances. rewrite HA.
    rewrite AssocOfSmallNumber_present by assumption.
    now rewrite Hodd. }
  assert (Hpasses : passes <->
            ((String.length role =? 0)%nat || (role =? "number")%string)
            && ((String.length resultRole =? 0)%nat
                || (resultRole =? "world")%string) = true).
  { subst passes. now rewrite andb_true_iff, !role_check. }
  rewrite Hafter. clear Hafter.
  destruct (_ && _) in *.
  - split; split; intros H; try reflexivity.
    + now apply Hpasses.
    + exfalso. apply H. now apply Hpasses.
    + apply app_inv_head in H. discriminate H.
  - split; split; intros H; try reflexivity.
    + apply Hpasses in H. discriminate H.
    + apply app_inv_head in H. discriminate H.
    + intros Hp. apply Hpasses in Hp. discriminate Hp.
Qed.

(** C6.  A mismatch is no error: for every EntityA handle with a present,
    even [Number], and for every handle the dispatch takes for an EntityB
    instance with a present [Name] other than "theWorld",
    AssociatorInstances posts no instance and then [MI_RESULT_OK]. *)
Theorem no_match_posts_OK :
  forall context nameSpace instanceName resultClass role resultRole
         (propertySet : PropertySet) keysOnly (filter : option MI_Filter),
    (X_SmallNumber_IsA instanceName = true /\
     exists_ (Number (as_X_SmallNumber instanceName)) = true /\
     Z.even (value (Number (as_X_SmallNumber instanceName))) = true)
    \/ (X_SmallNumber_IsA instanceName = false /\
        X_NumberWorld_IsA instanceName = true /\
        exists_ (Name (as_X_NumberWorld instanceName)) = true /\
        value (Name (as_X_NumberWorld instanceName)) <> "theWorld") ->
    AssociatorInstances context nameSpace instanceName resultClass role
      resultRole propertySet keysOnly filter
    = context ++ [PostedResult MI_RESULT_OK].
Proof.
  intros context nameSpace instanceName resultClass role resultRole
    propertySet keysOnly filter
    [(HA & Hkey & Heven) | (HA & HB & Hkey & Hname)];
    unfold AssociatorInstances; rewrite HA.
  - rewrite AssocOfSmallNumber_present by assumption.
    rewrite <- Z.negb_even, Heven. reflexivity.
  - rewrite HB, AssocOfNumberWorld_present by assumption.
    apply String.eqb_neq in Hname. rewrite Hname. reflexivity.
Qed.

(** C7.  For every handle that is neither an X_SmallNumber nor an
    X_NumberWorld, AssociatorInstances posts [MI_RESULT_FAILED] and
    nothing else. *)
Theorem unknown_type_posts_Failed :
  forall context nameSpace instanceName resultClass role resultRole
         (propertySet : PropertySet) keysOnly (filter : option MI_Filter),
    X_SmallNumber_IsA instanceName = false ->
    X_NumberWorld_IsA instanceName = false ->
    AssociatorInstances context nameSpace instanceName resultClass role
      resultRole propertySet keysOnly filter
    = context ++ [PostedResult MI_RESULT_FAILED].
Proof.
  intros context nameSpace instanceName resultClass role resultRole
    propertySet keysOnly filter HA HB.
  unfold AssociatorInstances. now rewrite HA, HB.
Qed.

(** C8.  On any arguments, EnumerateInstances, GetInstance, CreateInstance,
    ModifyInstance, DeleteInstance and ReferenceInstances add the one post
    [MI_RESULT_NOT_SUPPORTED] to the context, and Load and Unload add the
    one post [MI_RESULT_OK]; the context is all an operation can change. *)
Theorem stubs_post_NotSupported_and_lifecycle_posts_OK :
  forall (context : Context) (nameSpace role : string)
         (instanceName : MI_Instance)
         (assoc : X_OddSmallNumbers_Class)
         (propertySet : PropertySet) (keysOnly : bool)
         (filter : option MI_Filter),
    EnumerateInstances context nameSpace propertySet keysOnly filter
    = context ++ [PostedResult MI_RESULT_NOT_SUPPORTED]
    /\ GetInstance context nameSpace assoc propertySet
       = context ++ [PostedResult MI_RESULT_NOT_SUPPORTED]
    /\ CreateInstance context nameSpace assoc
       = context ++ [PostedResult MI_RESULT_NOT_SUPPORTED]
    /\ ModifyInstance context nameSpace assoc propertySet
       = context ++ [PostedResult MI_RESULT_NOT_SUPPORTED]
    /\ DeleteInstance context nameSpace assoc
       = context ++ [PostedResult MI_RESULT_NOT_SUPPORTED]
    /\ ReferenceInstances context nameSpace instanceName role propertySet
         keysOnly filter
       = context ++ [PostedResult MI_RESULT_NOT_SUPPORTED]
    /\ Load context = context ++ [PostedResult MI_RESULT_OK]
    /\ Unload context = context ++ [PostedResult MI_RESULT_OK].
Proof. intros. repeat split. Qed.

(** C9.  X_SmallNumber_IsA is tested first: for every handle that satisfies
    both type predicates, AssociatorInstances is the EntityA resolver run
    on the handle's X_SmallNumber view, and what the handle would show as
    an X_NumberWorld has no influence on the outcome. *)
Theorem SmallNumber_is_tested_first :
  forall context nameSpace instanceName resultClass role resultRole
         (propertySet : PropertySet) keysOnly (filter : option MI_Filter),
    X_SmallNumber_IsA instanceName = true ->
    X_NumberWorld_IsA instanceName = true ->
    AssociatorInstances context nameSpace instanceName resultClass role
      resultRole propertySet keysOnly filter
    = AssocOfSmallNumber context (as_X_SmallNumber instanceName)
        resultClass role resultRole propertySet keysOnly filter
    /\ forall other : X_NumberWorld_Class,
         AssociatorInstances context nameSpace
           (mkInstance true true (as_X_SmallNumber instanceName) other)
           resultClass role resultRole propertySet keysOnly filter
         = AssociatorInstances context nameSpace instanceName resultClass
             role resultRole propertySet keysOnly filter.
Proof.
  intros context nameSpace instanceName resultClass role resultRole
    propertySet keysOnly filter HA _.
  unfold AssociatorInstances. rewrite HA. split; reflexivity.
Qed.

(** C10.  Two calls of AssociatorInstances on the same context, handle,
    [role] and [resultRole] leave the same posts, whatever [nameSpace],
    [resultClass], [propertySet], [keysOnly] and [filter] each was given. *)
Theorem AssociatorInstances_ignores_the_other_arguments :
  forall context instanceName role resultRole
         nameSpace1 resultClass1 (propertySet1 : PropertySet) keysOnly1
         (filter1 : option MI_Filter)
         nameSpace2 resultClass2 (propertySet2 : PropertySet) keysOnly2
         (filter2 : option MI_Filter),
    AssociatorInstances context nameSpace1 instanceName resultClass1 role
      resultRole propertySet1 keysOnly1 filter1
    = AssociatorInstances context nameSpace2 instanceName resultClass2 role
        resultRole propertySet2 keysOnly2 filter2.
Proof.
  intros. unfold AssociatorInstances.
  destruct (X_SmallNumber_IsA instanceName).
  - (* EntityA: only the handle, role and resultRole are read *)
    unfold AssocOfSmallNumber. reflexivity.
  - destruct (X_NumberWorld_IsA instanceName).
    + (* EntityB: likewise *)
      unfold AssocOfNumberWorld. reflexivity.
    + (* unknown type: nothing is read *)
      reflexivity.
Qed.

(** ** Further properties of the association *)

Lemma odd_numbers_posted_not_nil (r : MI_Result) :
  map posted_number odd_numbers ++ [PostedResult r] <> [PostedResult r].
Proof.
  intros H. apply (f_equal (@List.length Posted)) in H.
  rewrite length_app, length_map, length_odd_numbers in H.
  cbn [List.length] in H. lia.
Qed.

(** X1.  In the EntityB direction the roles are the mirror image: for a
    handle taken for an EntityB instance named "theWorld", the odd numbers
    are posted exactly when [role] is empty or is "world" and [resultRole]
    is empty or is "number"; otherwise [MI_RESULT_OK] is posted alone. *)
Theorem NumberWorld_role_filter :
  forall context nameSpace instanceName resultClass role resultRole
         (propertySet : PropertySet) keysOnly (filter : option MI_Filter),
    X_SmallNumber_IsA instanceName = false ->
    X_NumberWorld_IsA instanceName = true ->
    exists_ (Name (as_X_NumberWorld instanceName)) = true ->
    value (Name (as_X_NumberWorld instanceName)) = "theWorld" ->
    let after :=
      AssociatorInstances context nameSpace instanceName resultClass role
        resultRole propertySet keysOnly filter in
    let passes :=
      (role = "" \/ role = "world") /\
      (resultRole = "" \/ resultRole = "number") in
    (passes <->
     after = context ++ map posted_number odd_numbers
                     ++ [PostedResult MI_RESULT_OK])
    /\ (~ passes <-> after = context ++ [PostedResult MI_RESULT_OK]).
Proof.
  intros context nameSpace instanceName resultClass role resultRole
    propertySet keysOnly filter HA HB Hkey Hname after passes.
  assert (Hafter : after = context
            ++ (if ((String.length role =? 0)%nat || (role =? "world")%string)
                   && ((String.length resultRole =? 0)%nat
                       || (resultRole =? "number")%string)
                then map posted_number odd_numbers else [])
            ++ [PostedResult MI_RESULT_OK]).
  { subst after. unfold AssociatorInstances. rewrite HA, HB.
    rewrite AssocOfNumberWorld_present by assumption.
    now rewrite Hname. }
  assert (Hpasses : passes <->
            ((String.length role =? 0)%nat || (role =? "world")%string)
            && ((String.length resultRole =? 0)%nat
                || (resultRole =? "number")%string) = true).
  { subst passes. now rewrite andb_true_iff, !role_check. }
  rewrite Hafter. clear Hafter.
  destruct (_ && _) in *.
  - split; split; intros H; try reflexivity.
    + now apply Hpasses.
    + exfalso. apply H. now apply Hpasses.
    + apply app_inv_head in H.
      now apply odd_numbers_posted_not_nil in H.
  - split; split; intros H; try reflexivity.
    + apply Hpasses in H. discriminate H.
    + apply app_inv_head in H. symmetry in H.
      now apply odd_numbers_posted_not_nil in H.
    + intros Hp. apply Hpasses in Hp. discriminate Hp.
Qed.

Lemma AssocOfSmallNumber_frame context instanceName resultClass role
    resultRole (propertySet : PropertySet) keysOnly
    (filter : option MI_Filter) :
  AssocOfSmallNumber context instanceName resultClass role resultRole
    propertySet keysOnly filter
  = context ++ AssocOfSmallNumber [] instanceName resultClass role
                 resultRole propertySet keysOnly filter.
Proof.
  destruct (exists_ (Number instanceName)) eqn:Hkey.
  - now rewrite !AssocOfSmallNumber_present by assumption.
  - now rewrite !AssocOfSmallNumber_missing_key by assumption.
Qed.

Lemma AssocOfNumberWorld_frame context instanceName resultClass role
    resultRole (propertySet : PropertySet) keysOnly
    (filter : option MI_Filter) :
  AssocOfNumberWorld context instanceName resultClass role resultRole
    propertySet keysOnly filter
  = context ++ AssocOfNumberWorld [] instanceName resultClass role
                 resultRole propertySet keysOnly filter.
Proof.
  destruct (exists_ (Name instanceName)) eqn:Hkey.
  - now rewrite !AssocOfNumberWorld_present by assumption.
  - now rewrite !AssocOfNumberWorld_missing_key by assumption.
Qed.

Lemma AssociatorInstances_appends context nameSpace instanceName
    resultClass role resultRole (propertySet : PropertySet) keysOnly
    (filter : option MI_Filter) :
  AssociatorInstances context nameSpace instanceName resultClass role
    resultRole propertySet keysOnly filter
  = context ++ AssociatorInstances [] nameSpace instanceName resultClass
                 role resultRole propertySet keysOnly filter.
Proof.
  unfold AssociatorInstances.
  destruct (X_SmallNumber_IsA instanceName);
    [apply AssocOfSmallNumber_frame|].
  destruct (X_NumberWorld_IsA instanceName);
    [apply AssocOfNumberWorld_frame | reflexivity].
Qed.

(** X2.  A call keeps no state and rewrites nothing: what
    AssociatorInstances leaves on a context is that context, untouched,
    followed by what the same call posts on an empty one; so two calls in
    a row leave the first call's posts followed by the second's. *)
Theorem AssociatorInstances_frame :
  forall context nameSpace instanceName resultClass role resultRole
         (propertySet : PropertySet) keysOnly (filter : option MI_Filter),
    AssociatorInstances context nameSpace instanceName resultClass role
      resultRole propertySet keysOnly filter
    = context ++ AssociatorInstances [] nameSpace instanceName resultClass
                   role resultRole propertySet keysOnly filter
    /\ forall nameSpace' instanceName' resultClass' role' resultRole'
              (propertySet' : PropertySet) keysOnly'
              (filter' : option MI_Filter),
         AssociatorInstances
           (AssociatorInstances context nameSpace instanceName resultClass
              role resultRole propertySet keysOnly filter)
           nameSpace' instanceName' resultClass' role' resultRole'
           propertySet' keysOnly' filter'
         = context
           ++ AssociatorInstances [] nameSpace instanceName resultClass
                role resultRole propertySet keysOnly filter
           ++ AssociatorInstances [] nameSpace' instanceName' resultClass'
                role' resultRole' propertySet' keysOnly' filter'.
Proof.
  intros. split; [apply AssociatorInstances_appends|].
  intros. rewrite AssociatorInstances_appends.
  rewrite (AssociatorInstances_appends context).
  now rewrite <- app_assoc.
Qed.

(** X3.  The status of AssociatorInstances is never
    [MI_RESULT_NOT_SUPPORTED]; it is [MI_RESULT_FAILED] exactly when the
    handle is of neither type or the key of the type it is taken for is
    absent, whatever [role] and [resultRole] are; and a call that fails
    posts no instance at all. *)
Theorem AssociatorInstances_status :
  forall context nameSpace instanceName resultClass role resultRole
         (propertySet : PropertySet) keysOnly (filter : option MI_Filter),
    exists (insts : list Instance) (r : MI_Result),
      AssociatorInstances context nameSpace instanceName resultClass role
        resultRole propertySet keysOnly filter
      = context ++ map PostedInstance insts ++ [PostedResult r]
      /\ (r = MI_RESULT_OK \/ r = MI_RESULT_FAILED)
      /\ (r = MI_RESULT_FAILED -> insts = [])
      /\ (r = MI_RESULT_FAILED <->
          (X_SmallNumber_IsA instanceName = true /\
           exists_ (Number (as_X_SmallNumber instanceName)) = false)
          \/ (X_SmallNumber_IsA instanceName = false /\
              X_NumberWorld_IsA instanceName = true /\
              exists_ (Name (as_X_NumberWorld instanceName)) = false)
          \/ (X_SmallNumber_IsA instanceName = false /\
              X_NumberWorld_IsA instanceName = false)).
Proof.
  intros. unfold AssociatorInstances.
  destruct (X_SmallNumber_IsA instanceName) eqn:HA.
  - destruct (exists_ (Number (as_X_SmallNumber instanceName))) eqn:Hkey.
    + rewrite AssocOfSmallNumber_present by assumption.
      exists (if Z.odd (value (Number (as_X_SmallNumber instanceName)))
                 && ((String.length role =? 0)%nat
                     || (role =? "number")%string)
                 && ((String.length resultRole =? 0)%nat
                     || (resultRole =? "world")%string)
              then [NumberWorld_Instance
                      (mkNumberWorld (mkField true "theWorld"))]
              else []), MI_RESULT_OK.
      split; [now destruct (_ && _)|].
      split; [now left|]. split; [discriminate|].
      split; [discriminate|]. intros [[_ H]|[(H & _)|[H _]]]; discriminate.
    + rewrite AssocOfSmallNumber_missing_key by assumption.
      exists [], MI_RESULT_FAILED.
      repeat split; auto.
  - destruct (X_NumberWorld_IsA instanceName) eqn:HB.
    + destruct (exists_ (Name (as_X_NumberWorld instanceName))) eqn:Hkey.
      * rewrite AssocOfNumberWorld_present by assumption.
        exists (if (value (Name (as_X_NumberWorld instanceName))
                    =? "theWorld")%string
                   && ((String.length role =? 0)%nat
                       || (role =? "world")%string)
                   && ((String.length resultRole =? 0)%nat
                       || (resultRole =? "number")%string)
                then map (fun k => SmallNumber_Instance
                                     (mkSmallNumber (mkField true k)))
                       odd_numbers
                else []), MI_RESULT_OK.
        split.
        { destruct (_ && _); [|reflexivity].
          now rewrite posted_numbers_are_instances. }
        split; [now left|]. split; [discriminate|].
        split; [discriminate|].
        intros [[H _]|[(_ & _ & H)|[_ H]]]; discriminate.
      * rewrite AssocOfNumberWorld_missing_key by assumption.
        exists [], MI_RESULT_FAILED.
        repeat split; auto.
    + exists [], MI_RESULT_FAILED.
      repeat split; auto.
Qed.


(** X5.  The two directions agree below 10000 only.  An EntityA handle
    with a present, odd [Number] always gets the singleton posted (empty
    roles); the singleton "theWorld" gets an instance with that same
    [Number] key posted back exactly when the number is below 10000. *)
Theorem directions_agree_below_10000_only :
  forall nameSpace resultClass (propertySet : PropertySet) keysOnly
         (filter : option MI_Filter) (aNumber theWorld : MI_Instance),
    X_SmallNumber_IsA aNumber = true ->
    exists_ (Number (as_X_SmallNumber aNumber)) = true ->
    Z.odd (value (Number (as_X_SmallNumber aNumber))) = true ->
    0 <= value (Number (as_X_SmallNumber aNumber)) ->
    X_SmallNumber_IsA theWorld = false ->
    X_NumberWorld_IsA theWorld = true ->
    exists_ (Name (as_X_NumberWorld theWorld)) = true ->
    value (Name (as_X_NumberWorld theWorld)) = "theWorld" ->
    In (PostedInstance (NumberWorld_Instance (GetNumberWorld "")))
       (AssociatorInstances [] nameSpace aNumber resultClass "" ""
          propertySet keysOnly filter)
    /\ ((exists x : X_SmallNumber_Class,
           In (PostedInstance (SmallNumber_Instance x))
              (AssociatorInstances [] nameSpace theWorld resultClass "" ""
                 propertySet keysOnly filter)
           /\ Number x = Number (as_X_SmallNumber aNumber))
        <-> value (Number (as_X_SmallNumber aNumber)) < 10000).
Proof.
  intros nameSpace resultClass propertySet keysOnly filter aNumber
    theWorld HA Hkey Hodd Hpos HA' HB' Hkey' Hname.
  unfold AssociatorInstances. rewrite HA, HA', HB'.
  rewrite AssocOfSmallNumber_present, AssocOfNumberWorld_present
    by assumption.
  rewrite Hodd, Hname. cbn [String.length Nat.eqb orb andb String.eqb app
                             Ascii.eqb Bool.eqb].
  split; [now left|]. split.
  - intros (x & Hx & Hnum). apply in_app_or in Hx.
    destruct Hx as [Hx|[Hx|[]]]; [|discriminate Hx].
    apply in_map_iff in Hx. destruct Hx as (k & Hk & Hx).
    apply In_odd_numbers in Hx. injection Hk as <-.
    rewrite <- Hnum. cbn. lia.
  - intros Hlt. exists (as_X_SmallNumber aNumber). split; [|reflexivity].
    apply in_or_app. left. apply in_map_iff.
    exists (value (Number (as_X_SmallNumber aNumber))). split.
    + unfold posted_number. do 2 f_equal.
      destruct (as_X_SmallNumber aNumber) as [[e v]].
      cbn in Hkey |- *. now rewrite Hkey.
    + apply In_odd_numbers. auto.
Qed.

End Provider.

Arguments EnumerateInstances {PropertySet MI_Filter}.
Arguments GetInstance {PropertySet X_OddSmallNumbers_Class}.
Arguments CreateInstance {X_OddSmallNumbers_Class}.
Arguments ModifyInstance {PropertySet X_OddSmallNumbers_Class}.
Arguments DeleteInstance {X_OddSmallNumbers_Class}.
Arguments AssocOfSmallNumber {PropertySet MI_Filter}.
Arguments AssocOfNumberWorld {PropertySet MI_Filter}.
Arguments AssociatorInstances {PropertySet MI_Filter}.
Arguments ReferenceInstances {PropertySet MI_Filter}.

(** ** The claims at sample handles *)

Lemma theWorld_posts_every_odd_number_witness :
  X_SmallNumber_IsA (world "theWorld") = false /\
  X_NumberWorld_IsA (world "theWorld") = true /\
  exists_ (Name (as_X_NumberWorld (world "theWorld"))) = true /\
  value (Name (as_X_NumberWorld (world "theWorld"))) = "theWorld" /\
  (AssociatorInstances [] "root/cimv2" (world "theWorld") "X_SmallNumber"
     "" "" tt false (@None unit)
   = [] ++ map posted_number odd_numbers ++ [PostedResult MI_RESULT_OK]
   /\ List.length odd_numbers = Z.to_nat 5000
   /\ (forall k, In k odd_numbers <-> 0 <= k < 10000 /\ Z.odd k = true)
   /\ (forall k, In k odd_numbers ->
                 count_occ Z.eq_dec odd_numbers k = 1%nat)
   /\ StronglySorted Z.lt odd_numbers).
Proof.
  do 4 (split; [reflexivity|]).
  apply (theWorld_posts_every_odd_number unit unit); reflexivity.
Defined.

Lemma odd_number_posts_theWorld_witness :
  X_SmallNumber_IsA number_7 = true /\
  exists_ (Number (as_X_SmallNumber number_7)) = true /\
  Z.odd (value (Number (as_X_SmallNumber number_7))) = true /\
  AssociatorInstances [] "root/cimv2" number_7 "X_NumberWorld" "" ""
    tt false (@None unit)
  = [] ++ [posted_theWorld; PostedResult MI_RESULT_OK].
Proof.
  do 3 (split; [reflexivity|]).
  apply (odd_number_posts_theWorld unit unit); reflexivity.
Defined.

Lemma missing_key_posts_Failed_witness :
  AssociatorInstances [] "root/cimv2" number_unset "" "number" "world"
    tt false (@None unit)
  = [] ++ [PostedResult MI_RESULT_FAILED]
  /\ AssociatorInstances [] "root/cimv2" world_unset "" "world" "number"
       tt true (@None unit)
     = [] ++ [PostedResult MI_RESULT_FAILED].
Proof.
  split; apply (missing_key_posts_Failed unit unit).
  - left. split; reflexivity.
  - right. repeat split; reflexivity.
Defined.

Lemma SmallNumber_role_filter_witness :
  X_SmallNumber_IsA number_7 = true /\
  exists_ (Number (as_X_SmallNumber number_7)) = true /\
  Z.odd (value (Number (as_X_SmallNumber number_7))) = true /\
  ((("number" = "" \/ "number" = "number") /\
    ("World" = "" \/ "World" = "world") <->
    AssociatorInstances [] "root/cimv2" number_7 "" "number" "World"
      tt false (@None unit)
    = [] ++ [posted_theWorld; PostedResult MI_RESULT_OK])
   /\ (~ (("number" = "" \/ "number" = "number") /\
          ("World" = "" \/ "World" = "world")) <->
       AssociatorInstances [] "root/cimv2" number_7 "" "number" "World"
         tt false (@None unit)
       = [] ++ [PostedResult MI_RESULT_OK])).
Proof.
  do 3 (split; [reflexivity|]).
  apply (SmallNumber_role_filter unit unit [] "root/cimv2" number_7 ""
           "number" "World" tt false None); reflexivity.
Defined.

Lemma no_match_posts_OK_witness :
  AssociatorInstances [] "root/cimv2" number_8 "" "" "" tt false
    (@None unit)
  = [] ++ [PostedResult MI_RESULT_OK]
  /\ AssociatorInstances [] "root/cimv2" (world "otherWorld") "" "" ""
       tt false (@None unit)
     = [] ++ [PostedResult MI_RESULT_OK].
Proof.
  split; apply (no_match_posts_OK unit unit).
  - left. repeat split; reflexivity.
  - right. repeat split; try reflexivity. discriminate.
Defined.

Lemma unknown_type_posts_Failed_witness :
  X_SmallNumber_IsA stranger = false /\
  X_NumberWorld_IsA stranger = false /\
  AssociatorInstances [] "root/cimv2" stranger "" "" "" tt false
    (@None unit)
  = [] ++ [PostedResult MI_RESULT_FAILED].
Proof.
  do 2 (split; [reflexivity|]).
  apply (unknown_type_posts_Failed unit unit); reflexivity.
Defined.

Lemma SmallNumber_is_tested_first_witness :
  X_SmallNumber_IsA number_7_and_world = true /\
  X_NumberWorld_IsA number_7_and_world = true /\
  (AssociatorInstances [] "root/cimv2" number_7_and_world "" "" "" tt false
     (@None unit)
   = AssocOfSmallNumber [] (as_X_SmallNumber number_7_and_world) "" "" ""
       tt false (@None unit)
   /\ forall other : X_NumberWorld_Class,
        AssociatorInstances [] "root/cimv2"
          (mkInstance true true (as_X_SmallNumber number_7_and_world) other)
          "" "" "" tt false (@None unit)
        = AssociatorInstances [] "root/cimv2" number_7_and_world "" "" ""
            tt false (@None unit)).
Proof.
  do 2 (split; [reflexivity|]).
  apply (SmallNumber_is_tested_first unit unit); reflexivity.
Defined.

(** ** The code run on sample calls *)

Example run_number_7 :
  AssociatorInstances [] "root/cimv2" number_7 "" "number" "world" tt false
    (@None unit)
  = [posted_theWorld; PostedResult MI_RESULT_OK].
Proof. reflexivity. Qed.

Example run_number_7_wrong_case :
  AssociatorInstances [] "root/cimv2" number_7 "" "Number" "" tt false
    (@None unit)
  = [PostedResult MI_RESULT_OK].
Proof. reflexivity. Qed.

Example run_number_7_roles_swapped :
  AssociatorInstances [] "root/cimv2" number_7 "" "world" "number" tt false
    (@None unit)
  = [PostedResult MI_RESULT_OK].
Proof. reflexivity. Qed.

Example run_loop_tail :
  AssocOfNumberWorld_loop 9995 [] =
  [posted_number 9995; posted_number 9997; posted_number 9999].
Proof. vm_compute. reflexivity. Qed.

Example run_theWorld :
  let after :=
    AssociatorInstances [] "root/cimv2" (world "theWorld") "" "world"
      "number" tt false (@None unit) in
  List.length after = Z.to_nat 5001
  /\ firstn 3 after = [posted_number 1; posted_number 3; posted_number 5]
  /\ skipn 4999 after = [posted_number 9999; PostedResult MI_RESULT_OK].
Proof. vm_compute. repeat split. Qed.

(** On a handle of both types the EntityB resolver, had it been chosen,
    would have posted the odd numbers; the dispatch posts the singleton. *)
Example run_number_7_and_world :
  AssociatorInstances [] "root/cimv2" number_7_and_world "" "" "" tt false
    (@None unit)
  = [posted_theWorld; PostedResult MI_RESULT_OK]
  /\ AssocOfNumberWorld [] (as_X_NumberWorld number_7_and_world) "" "" ""
       tt false (@None unit)
     = map posted_number odd_numbers ++ [PostedResult MI_RESULT_OK].
Proof.
  split; [reflexivity|].
  now rewrite AssocOfNumberWorld_present.
Qed.

(** * The service control script: properties *)

Section ServiceControl.

Context {M : Type} `{Machine M}.

Ltac sh_unfold :=
  cbv [main restart_omi restart_omi_generic reload_omi start_omi stop_omi
       wait_until_omi_stops is_omi_running verify_privileges
       bind ask ret exit_ echo exec machine log after_run after_echo refused
       server_runs service_control_disabled debian_8_or_later controller
       command] in *.

Ltac sh_atom c :=
  lazymatch c with
  | negb ?a => sh_atom a
  | andb ?a _ => sh_atom a
  | orb ?a _ => sh_atom a
  | _ => destruct c eqn:?
  end.

Ltac sh_case :=
  match goal with
  | |- context [if ?c then _ else _] => sh_atom c
  end.

Ltac sh_cases := repeat (sh_case; cbn [negb andb orb] in *; try discriminate).

(** [is_omi_running] reads only: it answers 1 for a running server, 0
    otherwise, or refuses another user than root. *)
Lemma is_omi_running_answer (s : Shell M) :
  is_omi_running s =
  if negb (id_u (machine s) =? 0) then refused s
  else (Returned (if server_runs (machine s) then 1 else 0), s).
Proof.
  destruct s as [m l]. sh_unfold. sh_cases; reflexivity.
Qed.



Lemma start_omi_answer (s : Shell M) :
  start_omi s =
  if negb (id_u (machine s) =? 0) then refused s
  else if server_runs (machine s) then (Returned 0, s)
  else if service_control_disabled (machine s)
  then (Returned 0, after_run ["/opt/omi/bin/omiserver"; "-d"] s)
  else via_controller "start" s.
Proof.
  destruct s as [m l]. unfold via_controller. sh_unfold.
  sh_cases; reflexivity.
Qed.

Lemma stop_omi_answer (s : Shell M) :
  stop_omi s =
  if negb (id_u (machine s) =? 0) then refused s
  else if negb (server_runs (machine s)) then (Returned 0, s)
  else if service_control_disabled (machine s)
  then (Returned 0, after_run ["/opt/omi/bin/omiserver"; "-s"] s)
  else via_controller "stop" s.
Proof.
  destruct s as [m l]. unfold via_controller. sh_unfold.
  sh_cases; reflexivity.
Qed.

Lemma reload_omi_answer (s : Shell M) :
  reload_omi s =
  if negb (id_u (machine s) =? 0) then refused s
  else if negb (server_runs (machine s)) then start_omi s
  else if pidof_systemd (machine s) =? 0
  then (Returned (fst (run ["/bin/systemctl"; "reload"; "omid"]
                         (machine s))),
        after_run ["/bin/systemctl"; "reload"; "omid"] s)
  else (Returned (fst (run [OMI_BIN; "-r"] (machine s))),
        after_run [OMI_BIN; "-r"] s).
Proof.
  unfold reload_omi, bind. rewrite is_omi_running_answer.
  destruct s as [m l]. cbv [ask machine after_run exec log].
  sh_cases; reflexivity.
Qed.

Lemma restart_omi_generic_answer (s : Shell M) :
  restart_omi_generic s =
  if negb (id_u (machine s) =? 0) then refused s
  else if negb (server_runs (machine s)) then start_omi s
  else if service_control_disabled (machine s)
  then (stop_omi ;; start_omi ;; ret 0) s
  else via_controller "restart" s.
Proof.
  unfold restart_omi_generic at 1. unfold bind at 1.
  rewrite is_omi_running_answer.
  destruct (negb (id_u (machine s) =? 0)); [reflexivity|].
  destruct (server_runs (machine s)); cbn [negb Z.eqb]; [|reflexivity].
  destruct s as [m l]. unfold via_controller. sh_unfold.
  sh_cases; reflexivity.
Qed.

Lemma restart_omi_answer (s : Shell M) :
  restart_omi s =
  if debian_8_or_later (machine s)
  then (Returned (fst (run ["/bin/systemctl"; "restart"; "omid"]
                         (machine s))),
        after_run ["/bin/systemctl"; "restart"; "omid"] s)
  else restart_omi_generic s.
Proof.
  unfold restart_omi, ask, debian_8_or_later, exec, after_run.
  destruct (test_x (machine s) "/usr/bin/lsb_release"
            && test_x (machine s) "/bin/systemctl"); [|reflexivity].
  destruct (lsb_distro (machine s) =? "Debian")%string; [|reflexivity].
  destruct (bc_version_match (machine s) =? "1")%string; reflexivity.
Qed.

(** X7.  On a Debian 8 or later, [restart] and [reload] hand over to
    [/bin/systemctl restart omid] at once: the user is not checked, the
    server is not looked for, and the marker file that disables the
    service manager is not honoured. *)
Theorem debian_restart_goes_to_systemctl :
  forall s : Shell M,
    debian_8_or_later (machine s) = true ->
    let handed_over :=
      (Returned (fst (run ["/bin/systemctl"; "restart"; "omid"]
                        (machine s))),
       after_run ["/bin/systemctl"; "restart"; "omid"] s) in
    restart_omi s = handed_over
    /\ main "restart" s = handed_over
    /\ main "reload" s = handed_over.
Proof.
  intros s Hdebian handed_over.
  assert (Hrestart : restart_omi s = handed_over).
  { rewrite restart_omi_answer. now rewrite Hdebian. }
  repeat split; assumption.
Qed.


(** X9.  With the marker file in place root's [start_omi] and [stop_omi]
    go to omiserver itself, [-d] to start and [-s] to stop, never to a
    service controller, and report status 0 whatever omiserver
    answered. *)
Theorem marker_file_goes_to_omiserver :
  forall s : Shell M,
    id_u (machine s) = 0 ->
    service_control_disabled (machine s) = true ->
    (server_runs (machine s) = false ->
     start_omi s
     = (Returned 0, after_run ["/opt/omi/bin/omiserver"; "-d"] s))
    /\ (server_runs (machine s) = true ->
        stop_omi s
        = (Returned 0, after_run ["/opt/omi/bin/omiserver"; "-s"] s)).
Proof.
  intros s Hroot Hmarker. split; intros Hruns.
  - rewrite start_omi_answer. now rewrite Hroot, Hruns, Hmarker.
  - rewrite stop_omi_answer. now rewrite Hroot, Hruns, Hmarker.
Qed.

(** X10.  Without the marker file, root's [start_omi], [stop_omi] and
    [restart_omi] (off Debian 8) all address the same service controller,
    the first that is there, in the order systemd, upstart,
    [/bin/systemctl], [/sbin/service], [/usr/sbin/service],
    [/usr/sbin/invoke-rc.d]; each starts that one program and returns its
    status, or, when there is none, complains on stderr and exits 1. *)
Theorem one_controller_for_start_stop_restart :
  forall s : Shell M,
    id_u (machine s) = 0 ->
    service_control_disabled (machine s) = false ->
    (server_runs (machine s) = false ->
     start_omi s = via_controller "start" s)
    /\ (server_runs (machine s) = true ->
        stop_omi s = via_controller "stop" s
        /\ (debian_8_or_later (machine s) = false ->
            restart_omi s = via_controller "restart" s)).
Proof.
  intros s Hroot Hmarker. split; [intros Hruns|intros Hruns; split].
  - rewrite start_omi_answer.
    now rewrite Hroot, Hmarker, Hruns.
  - rewrite stop_omi_answer.
    now rewrite Hroot, Hmarker, Hruns.
  - intros Hdebian.
    rewrite restart_omi_answer, Hdebian, restart_omi_generic_answer.
    now rewrite Hroot, Hmarker, Hruns.
Qed.

(** X11.  Restarting or reloading a server that does not run is starting
    it: [reload_omi], and [restart_omi] off Debian 8, behave as
    [start_omi] does. *)
Theorem restart_of_a_stopped_server_is_start :
  forall s : Shell M,
    server_runs (machine s) = false ->
    reload_omi s = start_omi s
    /\ (debian_8_or_later (machine s) = false ->
        restart_omi s = start_omi s).
Proof.
  intros s Hruns. split; [|intros Hdebian].
  - rewrite reload_omi_answer, Hruns. cbn [negb].
    destruct (negb (id_u (machine s) =? 0)) eqn:Huid; [|reflexivity].
    rewrite start_omi_answer. now rewrite Huid.
  - rewrite restart_omi_answer, Hdebian, restart_omi_generic_answer, Hruns.
    cbn [negb].
    destruct (negb (id_u (machine s) =? 0)) eqn:Huid; [|reflexivity].
    rewrite start_omi_answer. now rewrite Huid.
Qed.

(** X12.  Under the marker file root's [restart_omi] (off Debian 8) of a
    running server is [omiserver -s] followed by a fresh look at the
    server: if it is gone, [omiserver -d] follows; if it still shows as
    running, nothing is started.  The status is 0 in both cases. *)
Theorem restart_under_the_marker_file :
  forall s : Shell M,
    id_u (machine s) = 0 ->
    server_runs (machine s) = true ->
    service_control_disabled (machine s) = true ->
    debian_8_or_later (machine s) = false ->
    let stopped := after_run ["/opt/omi/bin/omiserver"; "-s"] s in
    id_u (machine stopped) = 0 ->
    (server_runs (machine stopped) = true ->
     restart_omi s = (Returned 0, stopped))
    /\ (server_runs (machine stopped) = false ->
        service_control_disabled (machine stopped) = true ->
        restart_omi s
        = (Returned 0,
           after_run ["/opt/omi/bin/omiserver"; "-d"] stopped)).
Proof.
  intros s Hroot Hruns Hmarker Hdebian stopped Hroot'.
  assert (Hrestart : restart_omi s = (start_omi ;; ret 0) stopped).
  { rewrite restart_omi_answer, Hdebian, restart_omi_generic_answer.
    rewrite Hroot, Hruns, Hmarker. cbn [negb Z.eqb].
    unfold bind at 1. rewrite stop_omi_answer.
    now rewrite Hroot, Hruns, Hmarker. }
  rewrite Hrestart. unfold bind. rewrite start_omi_answer, Hroot'.
  cbn [negb Z.eqb]. split.
  - intros Hruns'. now rewrite Hruns'.
  - intros Hruns' Hmarker'. now rewrite Hruns', Hmarker'.
Qed.















End ServiceControl.

(** * The further properties at sample inputs *)

Lemma NumberWorld_role_filter_witness :
  X_SmallNumber_IsA (world "theWorld") = false /\
  X_NumberWorld_IsA (world "theWorld") = true /\
  exists_ (Name (as_X_NumberWorld (world "theWorld"))) = true /\
  value (Name (as_X_NumberWorld (world "theWorld"))) = "theWorld" /\
  ((("world" = "" \/ "world" = "world") /\
    ("world" = "" \/ "world" = "number") <->
    AssociatorInstances [] "root/cimv2" (world "theWorld") "" "world"
      "world" tt false (@None unit)
    = [] ++ map posted_number odd_numbers ++ [PostedResult MI_RESULT_OK])
   /\ (~ (("world" = "" \/ "world" = "world") /\
          ("world" = "" \/ "world" = "number")) <->
       AssociatorInstances [] "root/cimv2" (world "theWorld") "" "world"
         "world" tt false (@None unit)
       = [] ++ [PostedResult MI_RESULT_OK])).
Proof.
  do 4 (split; [reflexivity|]).
  apply (NumberWorld_role_filter unit unit [] "root/cimv2"
           (world "theWorld") "" "world" "world" tt false None);
    reflexivity.
Defined.


Lemma directions_agree_below_10000_only_witness :
  In (PostedInstance (NumberWorld_Instance (GetNumberWorld "")))
     (AssociatorInstances [] "root/cimv2" (number 10001) "" "" "" tt false
        (@None unit))
  /\ ((exists x : X_SmallNumber_Class,
         In (PostedInstance (SmallNumber_Instance x))
            (AssociatorInstances [] "root/cimv2" (world "theWorld") "" ""
               "" tt false (@None unit))
         /\ Number x = Number (as_X_SmallNumber (number 10001)))
      <-> value (Number (as_X_SmallNumber (number 10001))) < 10000).
Proof.
  apply (directions_agree_below_10000_only unit unit "root/cimv2" "" tt
           false None (number 10001) (world "theWorld"));
    try reflexivity.
  cbn. lia.
Defined.


Lemma debian_restart_goes_to_systemctl_witness :
  debian_8_or_later (machine (on (debian_box 1000 false))) = true
  /\ main "reload" (on (debian_box 1000 false))
     = (Returned 0,
        after_run ["/bin/systemctl"; "restart"; "omid"]
          (on (debian_box 1000 false))).
Proof.
  assert (Hdebian : debian_8_or_later (machine (on (debian_box 1000 false)))
                    = true) by reflexivity.
  split; [exact Hdebian|].
  destruct (debian_restart_goes_to_systemctl (on (debian_box 1000 false))
              Hdebian) as (_ & _ & Hreload).
  exact Hreload.
Defined.


Lemma marker_file_goes_to_omiserver_witness :
  start_omi (on (container_box 0 false))
  = (Returned 0,
     after_run ["/opt/omi/bin/omiserver"; "-d"]
       (on (container_box 0 false)))
  /\ stop_omi (on (container_box 0 true))
     = (Returned 0,
        after_run ["/opt/omi/bin/omiserver"; "-s"]
          (on (container_box 0 true))).
Proof.
  split.
  - apply (marker_file_goes_to_omiserver (on (container_box 0 false)));
      reflexivity.
  - apply (marker_file_goes_to_omiserver (on (container_box 0 true)));
      reflexivity.
Defined.

Lemma one_controller_for_start_stop_restart_witness :
  start_omi (on (systemd_box 0 false))
  = via_controller "start" (on (systemd_box 0 false))
  /\ stop_omi (on (bare_box 0 true))
     = via_controller "stop" (on (bare_box 0 true))
  /\ restart_omi (on (bare_box 0 true))
     = via_controller "restart" (on (bare_box 0 true)).
Proof.
  split; [|split].
  - apply (one_controller_for_start_stop_restart
             (on (systemd_box 0 false))); reflexivity.
  - apply (one_controller_for_start_stop_restart (on (bare_box 0 true)));
      reflexivity.
  - apply (one_controller_for_start_stop_restart (on (bare_box 0 true)));
      reflexivity.
Defined.

Lemma restart_of_a_stopped_server_is_start_witness :
  server_runs (machine (on (systemd_box 0 false))) = false
  /\ reload_omi (on (systemd_box 0 false))
     = start_omi (on (systemd_box 0 false))
  /\ restart_omi (on (systemd_box 0 false))
     = start_omi (on (systemd_box 0 false)).
Proof.
  split; [reflexivity|]. split.
  - apply (restart_of_a_stopped_server_is_start
             (on (systemd_box 0 false))); reflexivity.
  - apply (restart_of_a_stopped_server_is_start
             (on (systemd_box 0 false))); reflexivity.
Defined.

Lemma restart_under_the_marker_file_witness :
  restart_omi (on (container_box 0 true))
  = (Returned 0,
     after_run ["/opt/omi/bin/omiserver"; "-d"]
       (after_run ["/opt/omi/bin/omiserver"; "-s"]
          (on (container_box 0 true)))).
Proof.
  apply (restart_under_the_marker_file (on (container_box 0 true)));
    reflexivity.
Defined.



(** ** The script run on sample machines *)

Example run_restart_in_container :
  main "restart" (on (container_box 0 true))
  = (Returned 0,
     mkShell (container_box 0 true)
       [Ran ["/opt/omi/bin/omiserver"; "-s"];
        Ran ["/opt/omi/bin/omiserver"; "-d"]]).
Proof. vm_compute. reflexivity. Qed.

Example run_start_on_bare_box :
  main "start" (on (bare_box 0 false))
  = (Exited 1,
     mkShell (bare_box 0 false)
       [Echo 2 "Unrecognized service controller to start omid service"]).
Proof. vm_compute. reflexivity. Qed.

Example run_wait_never_stops :
  wait_until_omi_stops 2 (on (systemd_box 0 true))
  = (Returned 1,
     mkShell (systemd_box 0 true)
       (repeat (Ran ["sleep"; "0.5"]) 4)).
Proof. vm_compute. reflexivity. Qed.

Example run_wait_as_user :
  wait_until_omi_stops 0 (on (systemd_box 1000 true))
  = (Exited 1, mkShell (systemd_box 1000 true) [Echo 1 invalid_parameter]).
Proof. vm_compute. reflexivity. Qed.
